(** * Lab 1: calling the Mistral chat-completion API

    A shallow embedding of [src/lab1_api/lab1_api.py]: the client
    construction [get_client], the module-level initialisation that binds
    the global [client], and the three request functions [basic_chat],
    [chat_with_params] and [chat_with_system].

    The script talks to two things outside of it: the process environment
    ([os.environ]) and the remote chat-completion service.  Both are made
    explicit.  A [world] carries the environment and a trace of every
    observable action the script performed; the remote service is an
    arbitrary oracle that answers each call either with a response or with
    an exception. *)

From Stdlib Require Import ZArith PrimFloat Ascii.
From stdpp Require Import base option list strings pretty gmap.

Set Warnings "-inexact-float".
Local Open Scope string_scope.
Local Open Scope list_scope.
Local Open Scope Z_scope.

(** ** Python values used by the script *)

(** A raised Python exception: its class and its message.  The remote
    service may raise any of them. *)
Record exn : Type := Exception { exn_class : string; exn_msg : string }.

Definition ValueError (msg : string) : exn := Exception "ValueError" msg.
Definition IndexError (msg : string) : exn := Exception "IndexError" msg.

(** The handle returned by [Mistral(api_key=...)]. *)
Record Mistral : Type := { api_key : string }.

(** The keyword arguments of one [client.chat.complete(...)] call.  Each
    message is the Python dict the script builds, with string keys.  A
    sampling knob is [None] when the call site does not pass that keyword
    at all. *)
Record ChatRequest : Type := {
  model : string;
  messages : list (gmap string string);
  temperature : option float;
  max_tokens : option Z;
  top_p : option float
}.

(** What the script reads from a response:
    [response.choices[0].message.content]. *)
Record AssistantMessage : Type := { content : string }.
Record ChatCompletionChoice : Type := { message : AssistantMessage }.
Record ChatCompletionResponse : Type := { choices : list ChatCompletionChoice }.

(** ** The world outside the script *)

Inductive event : Type :=
| LoadDotenv                                   (* load_dotenv() *)
| EnvironGet (key : string)                    (* os.environ.get(key) *)
| MistralNew (key : string)                    (* Mistral(api_key=key) *)
| ChatComplete (c : Mistral) (req : ChatRequest)
                                               (* client.chat.complete(...): one outbound call *)
| Stdout (line : string).                      (* print(line) *)

Record world : Type := {
  environ : gmap string string;
  trace : list event
}.

Definition log (e : event) (w : world) : world :=
  {| environ := environ w; trace := trace w ++ [e] |}.

(** ** Computations that may raise *)

Inductive outcome (A : Type) : Type :=
| Return (a : A)
| Raise (e : exn).
Arguments Return {A} a.
Arguments Raise {A} e.

Definition M (A : Type) : Type := world → outcome A * world.

#[global] Instance M_ret : MRet M := λ A a w, (Return a, w).

#[global] Instance M_bind : MBind M := λ A B k m w,
  match m w with
  | (Return a, w') => k a w'
  | (Raise e, w') => (Raise e, w')
  end.

Definition raise {A : Type} (e : exn) : M A := λ w, (Raise e, w).

Definition emit (e : event) : M unit := λ w, (Return tt, log e w).

(** [print(line)] *)
Definition print (line : string) : M unit := emit (Stdout line).

(** [os.environ.get(key)]: [None] when the variable is not set. *)
Definition environ_get (key : string) : M (option string) :=
  λ w, (Return (environ w !! key), log (EnvironGet key) w).

(** [Mistral(api_key=key)]: builds the handle, no request is sent. *)
Definition Mistral_new (key : string) : M Mistral :=
  _ ← emit (MistralNew key); mret {| api_key := key |}.

(** [l[0]] on a Python list. *)
Definition index0 {A : Type} (l : list A) : M A :=
  match l with
  | x :: _ => mret x
  | [] => raise (IndexError "list index out of range")
  end.

(** ** [get_client] and the module initialisation (lines 36-50) *)

(** [not api_key] holds when [os.environ.get] gave [None] or the empty
    string; these are the first two cases of the match. *)
Definition missing_key_message : string :=
  "MISTRAL_API_KEY не установлен. Установите: export MISTRAL_API_KEY='your_key'".

Definition get_client : M Mistral :=
  api_key ← environ_get "MISTRAL_API_KEY";
  match api_key with
  | None | Some "" => raise (ValueError missing_key_message)
  | Some api_key => Mistral_new api_key
  end.

(** The module's global bindings the functions below read. *)
Record globals : Type := { client : Mistral }.

Section Script.

(** What [load_dotenv()] does to the environment (python-dotenv is not part
    of the script). *)
Variable dotenv : gmap string string → gmap string string.

(** The remote service: given everything that happened so far, the handle
    and the request, it answers with an exception or with a response. *)
Variable service :
  list event → Mistral → ChatRequest → exn + ChatCompletionResponse.

Definition load_dotenv : M unit :=
  λ w, (Return tt, log LoadDotenv {| environ := dotenv (environ w); trace := trace w |}).

Definition module_init : M globals :=
  _ ← load_dotenv;
  client ← get_client;
  _ ← print "Клиент Mistral API инициализирован!";
  mret {| client := client |}.

(** [client.chat.complete(...)]: exactly one outbound call. *)
Definition chat_complete (c : Mistral) (req : ChatRequest) : M ChatCompletionResponse :=
  λ w, (match service (trace w) c req with
        | inl e => Raise e
        | inr response => Return response
        end, log (ChatComplete c req) w).

(** ** The three request functions

    A parameter with a default value in the Python signature is an [option]
    here: [None] stands for a call that leaves the keyword out, and the
    first lines of each body put the signature's default in its place.
    Strings are the UTF-8 bytes of the Python [str], floats are binary64,
    [int] is [Z].  The functions are defined after [client = get_client()]
    has run, so they always find the global [client] bound. *)

Section Functions.

Variable G : globals.

Definition basic_chat (prompt : string) (model : option string) : M string :=
  let model := default "mistral-small-latest" model in
  response ← chat_complete (client G)
    {| model := model;
       messages := [ {[ "role" := "user"; "content" := prompt ]} ];
       temperature := None; max_tokens := None; top_p := None |};
  choice ← index0 (choices response);
  mret (content (message choice)).

Definition chat_with_params (prompt : string) (model : option string)
    (temperature : option float) (max_tokens : option Z) (top_p : option float)
    : M string :=
  let model := default "mistral-small-latest" model in
  let temperature := default 0.7%float temperature in
  let max_tokens := default 256 max_tokens in
  let top_p := default 1.0%float top_p in
  response ← chat_complete (client G)
    {| model := model;
       messages := [ {[ "role" := "user"; "content" := prompt ]} ];
       temperature := Some temperature;
       max_tokens := Some max_tokens;
       top_p := Some top_p |};
  choice ← index0 (choices response);
  mret (content (message choice)).

Definition chat_with_system (system_prompt user_prompt : string)
    (model : option string) (temperature : option float) : M string :=
  let model := default "mistral-small-latest" model in
  let temperature := default 0.7%float temperature in
  response ← chat_complete (client G)
    {| model := model;
       messages := [ {[ "role" := "system"; "content" := system_prompt ]};
                     {[ "role" := "user"; "content" := user_prompt ]} ];
       temperature := Some temperature;
       max_tokens := None; top_p := None |};
  choice ← index0 (choices response);
  mret (content (message choice)).

End Functions.
End Script.

(** ** Observing a run *)

(** The value or exception a computation ends with. *)
Definition result {A : Type} (m : M A) (w : world) : outcome A := fst (m w).

(** The events a computation adds to the trace. *)
Definition emitted {A : Type} (m : M A) (w : world) : list event :=
  drop (length (trace w)) (trace (snd (m w))).

(** The payloads of the outbound calls among some events. *)
Definition payloads (t : list event) : list ChatRequest :=
  omap (λ e, match e with ChatComplete _ req => Some req | _ => None end) t.

(** The request each function hands to [client.chat.complete], by name. *)
Definition user_message (prompt : string) : gmap string string :=
  {[ "role" := "user"; "content" := prompt ]}.

Definition system_message (system_prompt : string) : gmap string string :=
  {[ "role" := "system"; "content" := system_prompt ]}.

Definition basic_chat_request (prompt : string) (model : option string) : ChatRequest :=
  {| model := default "mistral-small-latest" model;
     messages := [user_message prompt];
     temperature := None; max_tokens := None; top_p := None |}.

Definition chat_with_params_request (prompt : string) (model : option string)
    (t : option float) (n : option Z) (p : option float) : ChatRequest :=
  {| model := default "mistral-small-latest" model;
     messages := [user_message prompt];
     temperature := Some (default 0.7%float t);
     max_tokens := Some (default 256 n);
     top_p := Some (default 1.0%float p) |}.

Definition chat_with_system_request (system_prompt user_prompt : string)
    (model : option string) (t : option float) : ChatRequest :=
  {| model := default "mistral-small-latest" model;
     messages := [system_message system_prompt; user_message user_prompt];
     temperature := Some (default 0.7%float t);
     max_tokens := None; top_p := None |}.

(** What [response.choices[0].message.content] evaluates to on an answer of
    the service. *)
Definition first_text (answer : exn + ChatCompletionResponse) : outcome string :=
  match answer with
  | inl e => Raise e
  | inr response =>
      match choices response with
      | [] => Raise (IndexError "list index out of range")
      | choice :: _ => Return (content (message choice))
      end
  end.

(** ** The cells of the script after the initialisation (lines 70-217)

    Each notebook cell is one definition.  The cells rebind module globals
    such as [prompt] and [response]; the three functions read none of them
    (their parameters shadow them), so only [client] is kept in [globals]. *)

(** [s * n] on a Python [str]. *)
Fixpoint str_mul (s : string) (n : nat) : string :=
  match n with
  | O => ""
  | S n => s +:+ str_mul s n
  end.

(** A byte [10xxxxxx] continues a UTF-8 code point. *)
Definition is_continuation (b : ascii) : bool :=
  match b with
  | Ascii _ _ _ _ _ _ false true => true
  | _ => false
  end.

(** [len(s)] on a Python [str]: its number of code points. *)
Fixpoint len (s : string) : nat :=
  match s with
  | "" => 0%nat
  | String b s => if is_continuation b then len s else S (len s)
  end.

(** The character "\n". *)
Definition newline : string := String "010"%char "".

(** The statement [for x in xs: body]. *)
Fixpoint for_in {A : Type} (xs : list A) (body : A → M unit) : M unit :=
  match xs with
  | [] => mret tt
  | x :: xs => _ ← body x; for_in xs body
  end.

Definition system_prompts : list (string * option string) :=
  [ ("Без системного промпта", None);
    ("Эксперт", Some "Ты эксперт по ML. Отвечай кратко и технически точно.");
    ("Учитель для детей",
     Some "Ты учитель, объясняющий сложные вещи простыми словами для детей 10 лет.");
    ("Поэт", Some "Ты поэт. Отвечай в стихотворной форме.") ].

(** The prompts the cells bind to [prompt] and [user_prompt]. *)
Definition test_prompt : string := "Привет! Расскажи о себе в двух предложениях.".
Definition temperature_prompt : string := "Придумай название для стартапа по доставке еды".
Definition max_tokens_prompt : string := "Расскажи историю о космическом путешествии".
Definition top_p_prompt : string := "Напиши короткое стихотворение о программировании".
Definition user_prompt : string := "Объясни что такое машинное обучение".

Section Driver.

Variable dotenv : gmap string string → gmap string string.
Variable service :
  list event → Mistral → ChatRequest → exn + ChatCompletionResponse.

(** How an f-string renders a float (Python's own formatting, not part of
    the script). *)
Variable float_str : float → string.

Section Cells.

Variable G : globals.

(** Lines 70-73. *)
Definition test_request : M unit :=
  response ← basic_chat service G test_prompt None;
  _ ← print "Ответ модели:";
  print response.

(** Lines 119-129. *)
Definition temperature_experiment : M unit :=
  let prompt := temperature_prompt in
  _ ← print (str_mul "=" 60);
  _ ← print "ЭКСПЕРИМЕНТ: Влияние температуры";
  _ ← print ("Промпт: " +:+ prompt);
  _ ← print (str_mul "=" 60);
  for_in [0.0; 0.5; 1.0; 1.5]%float (λ temp,
    _ ← print (newline +:+ "--- Temperature: " +:+ float_str temp +:+ " ---");
    response ← chat_with_params service G prompt None (Some temp) (Some 100) None;
    print response).

(** Lines 137-148. *)
Definition max_tokens_experiment : M unit :=
  let prompt := max_tokens_prompt in
  _ ← print (str_mul "=" 60);
  _ ← print "ЭКСПЕРИМЕНТ: Влияние max_tokens";
  _ ← print ("Промпт: " +:+ prompt);
  _ ← print (str_mul "=" 60);
  for_in [50; 100; 200] (λ max_tokens,
    _ ← print (newline +:+ "--- Max Tokens: " +:+ pretty max_tokens +:+ " ---");
    response ← chat_with_params service G prompt None
                 (Some 0.7%float) (Some max_tokens) None;
    _ ← print response;
    print ("[Длина: " +:+ pretty (len response) +:+ " символов]")).

(** Lines 156-166. *)
Definition top_p_experiment : M unit :=
  let prompt := top_p_prompt in
  _ ← print (str_mul "=" 60);
  _ ← print "ЭКСПЕРИМЕНТ: Влияние top_p";
  _ ← print ("Промпт: " +:+ prompt);
  _ ← print (str_mul "=" 60);
  for_in [0.1; 0.5; 0.9; 1.0]%float (λ top_p,
    _ ← print (newline +:+ "--- Top P: " +:+ float_str top_p +:+ " ---");
    response ← chat_with_params service G prompt None
                 (Some 0.8%float) (Some 100) (Some top_p);
    print response).

(** The body of the loop of lines 211-217.  [if system_prompt:] holds on a
    non-empty string, the first case of the match; [None] and the empty
    string take the [else] branch. *)
Definition system_prompt_step (user_prompt : string)
    (entry : string * option string) : M unit :=
  let '(name, system_prompt) := entry in
  _ ← print (newline +:+ "--- " +:+ name +:+ " ---");
  response ←
    match system_prompt with
    | Some (String _ _ as system_prompt) =>
        chat_with_system service G system_prompt user_prompt None None
    | _ => chat_with_params service G user_prompt None None (Some 200) None
    end;
  print response.

(** Lines 197-217. *)
Definition system_prompt_experiment : M unit :=
  _ ← print (str_mul "=" 60);
  _ ← print "ЭКСПЕРИМЕНТ: Влияние системного промпта";
  _ ← print ("Вопрос: " +:+ user_prompt);
  _ ← print (str_mul "=" 60);
  for_in system_prompts (system_prompt_step user_prompt).

(** Everything the script runs once [client] is bound. *)
Definition after_init : M unit :=
  _ ← test_request;
  _ ← temperature_experiment;
  _ ← max_tokens_experiment;
  _ ← top_p_experiment;
  system_prompt_experiment.

End Cells.

(** The whole script, top to bottom. *)
Definition main : M unit :=
  G ← module_init dotenv;
  after_init G.

End Driver.

(** ** What a piece of the script may do *)

(** The world after some more events. *)
Definition extend (w : world) (l : list event) : world :=
  {| environ := environ w; trace := trace w ++ l |}.

(** Once [client] is bound to [c], the script only prints and sends
    requests through [c]. *)
Definition prints_or_calls (c : Mistral) (e : event) : Prop :=
  match e with
  | Stdout _ => True
  | ChatComplete c' _ => c' = c
  | _ => False
  end.

(** [behaves service Q reqs m]: from any world, [m] leaves the environment
    alone and adds events that all satisfy [Q]; the requests it sends are
    the first ones of [reqs], and all of [reqs] when it returns; when it
    raises, the last thing it did was a call, and the exception is what
    indexing that call's answer gives. *)
Definition behaves {A : Type}
    (service : list event → Mistral → ChatRequest → exn + ChatCompletionResponse)
    (Q : event → Prop) (reqs : list ChatRequest) (m : M A) : Prop :=
  ∀ w, ∃ l,
    snd (m w) = extend w l
    ∧ Forall Q l
    ∧ payloads l `prefix_of` reqs
    ∧ match fst (m w) with
      | Return _ => payloads l = reqs
      | Raise e =>
          ∃ l' c req, l = l' ++ [ChatComplete c req]
                      ∧ first_text (service (trace w ++ l') c req) = Raise e
      end.

(** What a successful initialisation adds to the trace. *)
Definition init_events (key : string) : list event :=
  [LoadDotenv; EnvironGet "MISTRAL_API_KEY"; MistralNew key;
   Stdout "Клиент Mistral API инициализирован!"].

(** The request one entry of [system_prompts] leads to. *)
Definition system_prompt_request (entry : string * option string) : ChatRequest :=
  match snd entry with
  | Some (String _ _ as system_prompt) =>
      chat_with_system_request system_prompt user_prompt None None
  | _ => chat_with_params_request user_prompt None None (Some 200) None
  end.

(** The sixteen requests of a complete run of the script, in order. *)
Definition script_requests : list ChatRequest :=
  [basic_chat_request test_prompt None]
  ++ ((λ temp, chat_with_params_request temperature_prompt None
                 (Some temp) (Some 100) None) <$> [0.0; 0.5; 1.0; 1.5]%float)
  ++ ((λ max_tokens, chat_with_params_request max_tokens_prompt None
                       (Some 0.7%float) (Some max_tokens) None) <$> [50; 100; 200])
  ++ ((λ top_p, chat_with_params_request top_p_prompt None
                  (Some 0.8%float) (Some 100) (Some top_p)) <$> [0.1; 0.5; 0.9; 1.0]%float)
  ++ (system_prompt_request <$> system_prompts).

(** ** Mock services and sample worlds *)

Definition mock_hello : list event → Mistral → ChatRequest → exn + ChatCompletionResponse :=
  λ _ _ _, inr {| choices := [ {| message := {| content := "Hello!" |} |} ] |}.

(** A service whose first choice carries an empty text. *)
Definition mock_blank : list event → Mistral → ChatRequest → exn + ChatCompletionResponse :=
  λ _ _ _, inr {| choices := [ {| message := {| content := "" |} |} ] |}.

(** A service that answers with no choice at all. *)
Definition mock_no_choices : list event → Mistral → ChatRequest → exn + ChatCompletionResponse :=
  λ _ _ _, inr {| choices := [] |}.

(** A service that rejects every call. *)
Definition unauthorized : exn := Exception "SDKError" "API error occurred: Status 401".

Definition mock_failing : list event → Mistral → ChatRequest → exn + ChatCompletionResponse :=
  λ _ _ _, inl unauthorized.

Definition no_dotenv : gmap string string → gmap string string := λ env, env.

(** A service that answers with two choices. *)
Definition mock_two_choices :
    list event → Mistral → ChatRequest → exn + ChatCompletionResponse :=
  λ _ _ _, inr {| choices := [ {| message := {| content := "first" |} |};
                               {| message := {| content := "second" |} |} ] |}.

(** Python's rendering of the floats the script formats. *)
Definition sample_float_str (x : float) : string :=
  if PrimFloat.eqb x 0.0 then "0.0"
  else if PrimFloat.eqb x 0.5 then "0.5"
  else if PrimFloat.eqb x 1.0 then "1.0"
  else if PrimFloat.eqb x 1.5 then "1.5"
  else if PrimFloat.eqb x 0.1 then "0.1"
  else if PrimFloat.eqb x 0.9 then "0.9"
  else "?".

Definition world_without_key : world := {| environ := ∅; trace := [] |}.

Definition world_with_empty_key : world :=
  {| environ := {[ "MISTRAL_API_KEY" := "" ]}; trace := [] |}.

Definition world_with_key : world :=
  {| environ := {[ "MISTRAL_API_KEY" := "secret" ]}; trace := [] |}.

Definition sample_globals : globals := {| client := {| api_key := "secret" |} |}.

(** The world [world_with_key] turns into once the module is initialised. *)
Definition world_after_init : world :=
  {| environ := {[ "MISTRAL_API_KEY" := "secret" ]};
     trace := [LoadDotenv; EnvironGet "MISTRAL_API_KEY"; MistralNew "secret";
               Stdout "Клиент Mistral API инициализирован!"] |}.

(** * Properties *)

(** Runs a function up to the answer of the service and splits on it. *)
Ltac run_call :=
  unfold mbind, M_bind, chat_complete, first_text; simpl;
  match goal with
  | |- context [match ?answer with inl _ => _ | inr _ => _ end] =>
      destruct answer as [e | [[| choice rest]]]
  end; reflexivity.

Section Properties.

Variable service :
  list event → Mistral → ChatRequest → exn + ChatCompletionResponse.
Variable G : globals.
Variable dotenv : gmap string string → gmap string string.

(** ** How each function runs

    Every function performs one call and then indexes the answer; the three
    lemmas below say so in one equation each, and the rest of the file
    reasons from them. *)

Lemma emitted_log {A : Type} (m : M A) (w : world) (o : outcome A) (e : event) :
  m w = (o, log e w) → emitted m w = [e].
Proof.
  intros Hrun. unfold emitted. rewrite Hrun. simpl.
  apply drop_app_length.
Qed.

Lemma basic_chat_run (prompt : string) (model : option string) (w : world) :
  basic_chat service G prompt model w =
    (first_text (service (trace w) (client G) (basic_chat_request prompt model)),
     log (ChatComplete (client G) (basic_chat_request prompt model)) w).
Proof. unfold basic_chat, basic_chat_request, user_message. run_call. Qed.

Lemma chat_with_params_run (prompt : string) (model : option string)
    (t : option float) (n : option Z) (p : option float) (w : world) :
  chat_with_params service G prompt model t n p w =
    (first_text (service (trace w) (client G) (chat_with_params_request prompt model t n p)),
     log (ChatComplete (client G) (chat_with_params_request prompt model t n p)) w).
Proof. unfold chat_with_params, chat_with_params_request, user_message. run_call. Qed.

Lemma chat_with_system_run (system_prompt user_prompt : string)
    (model : option string) (t : option float) (w : world) :
  chat_with_system service G system_prompt user_prompt model t w =
    (first_text (service (trace w) (client G)
                   (chat_with_system_request system_prompt user_prompt model t)),
     log (ChatComplete (client G)
            (chat_with_system_request system_prompt user_prompt model t)) w).
Proof.
  unfold chat_with_system, chat_with_system_request, system_message, user_message.
  run_call.
Qed.

Lemma message_role (r c : string) :
  ({[ "role" := r; "content" := c ]} : gmap string string) !! "role" = Some r.
Proof. by simplify_map_eq. Qed.

Lemma message_content (r c : string) :
  ({[ "role" := r; "content" := c ]} : gmap string string) !! "content" = Some c.
Proof. by simplify_map_eq. Qed.

Lemma message_keys (r c : string) :
  dom ({[ "role" := r; "content" := c ]} : gmap string string) = {[ "role"; "content" ]}.
Proof. by rewrite dom_insert_L, dom_singleton_L. Qed.

(** ** Building the client *)

Lemma emitted_app {A : Type} (m : M A) (w w' : world) (o : outcome A) (l : list event) :
  m w = (o, w') → trace w' = trace w ++ l → emitted m w = l.
Proof.
  intros Hrun Htrace. unfold emitted. rewrite Hrun. simpl. rewrite Htrace.
  apply drop_app_length.
Qed.

Lemma get_client_missing (w : world) :
  environ w !! "MISTRAL_API_KEY" = None ∨ environ w !! "MISTRAL_API_KEY" = Some "" →
  get_client w = (Raise (ValueError missing_key_message),
                  log (EnvironGet "MISTRAL_API_KEY") w).
Proof.
  intros Hkey. unfold get_client, mbind, M_bind, environ_get. simpl.
  by destruct Hkey as [-> | ->].
Qed.

Lemma get_client_present (w : world) (key : string) :
  environ w !! "MISTRAL_API_KEY" = Some key → key ≠ "" →
  get_client w = (Return {| api_key := key |},
                  log (MistralNew key) (log (EnvironGet "MISTRAL_API_KEY") w)).
Proof.
  intros Hkey Hne. unfold get_client, mbind, M_bind, environ_get. simpl.
  rewrite Hkey. by destruct key.
Qed.

(** C5.  When [MISTRAL_API_KEY] is not set, or set to the empty string, at
    the time the client is built, [get_client] raises [ValueError] (the
    configuration error of the script); all it did before was read the
    variable: no client was built and no call went out. *)
Theorem get_client_missing_credential (w : world) :
  environ w !! "MISTRAL_API_KEY" = None ∨ environ w !! "MISTRAL_API_KEY" = Some "" →
  result get_client w = Raise (ValueError missing_key_message)
  ∧ emitted get_client w = [EnvironGet "MISTRAL_API_KEY"]
  ∧ payloads (emitted get_client w) = [].
Proof.
  intros Hkey. pose proof (get_client_missing w Hkey) as Hrun.
  assert (emitted get_client w = [EnvironGet "MISTRAL_API_KEY"]) as Hev
    by (eapply emitted_log, Hrun).
  split; [unfold result; by rewrite Hrun |].
  split; [exact Hev | by rewrite Hev].
Qed.

(** The module initialisation stops at the same error, before anything is
    printed. *)
Lemma module_init_missing_credential (w : world) :
  dotenv (environ w) !! "MISTRAL_API_KEY" = None
  ∨ dotenv (environ w) !! "MISTRAL_API_KEY" = Some "" →
  result (module_init dotenv) w = Raise (ValueError missing_key_message)
  ∧ emitted (module_init dotenv) w = [LoadDotenv; EnvironGet "MISTRAL_API_KEY"].
Proof.
  intros Hkey.
  assert (module_init dotenv w
          = (Raise (ValueError missing_key_message),
             log (EnvironGet "MISTRAL_API_KEY")
               (log LoadDotenv {| environ := dotenv (environ w); trace := trace w |})))
    as Hrun.
  { unfold module_init, mbind. unfold M_bind at 1. unfold load_dotenv.
    cbv beta iota. unfold M_bind at 1.
    by rewrite get_client_missing. }
  split; [unfold result; by rewrite Hrun |].
  eapply emitted_app; [exact Hrun |]. simpl. by rewrite <- app_assoc.
Qed.

Lemma module_init_run (w : world) (key : string) :
  dotenv (environ w) !! "MISTRAL_API_KEY" = Some key → key ≠ "" →
  module_init dotenv w
  = (Return {| client := {| api_key := key |} |},
     {| environ := dotenv (environ w);
        trace := trace w ++ [LoadDotenv; EnvironGet "MISTRAL_API_KEY"; MistralNew key;
                             Stdout "Клиент Mistral API инициализирован!"] |}).
Proof.
  intros Hkey Hne.
  unfold module_init, mbind. unfold M_bind at 1. unfold load_dotenv.
  cbv beta iota. unfold M_bind at 1.
  rewrite (get_client_present _ key) by done.
  unfold M_bind, print, emit, mret, M_ret, log. simpl.
  by rewrite <- !app_assoc.
Qed.

(** C9.  The module initialisation reads [MISTRAL_API_KEY] once and builds
    one client from it; every later call of the three functions, in
    whatever world it runs, does nothing but send its request through that
    same client: it neither reads the environment nor builds a client, and
    replacing the environment changes neither its outcome nor what it
    sends. *)
Theorem client_built_once_and_shared (w0 w1 : world) :
  module_init dotenv w0 = (Return G, w1) →
  (∃ key,
      dotenv (environ w0) !! "MISTRAL_API_KEY" = Some key
      ∧ client G = {| api_key := key |}
      ∧ emitted (module_init dotenv) w0
          = [LoadDotenv; EnvironGet "MISTRAL_API_KEY"; MistralNew key;
             Stdout "Клиент Mistral API инициализирован!"])
  ∧ ∀ (w : world) (env' : gmap string string),
      let w' := {| environ := env'; trace := trace w |} in
      (∀ prompt model,
          emitted (basic_chat service G prompt model) w'
            = [ChatComplete (client G) (basic_chat_request prompt model)]
          ∧ emitted (basic_chat service G prompt model) w'
              = emitted (basic_chat service G prompt model) w
          ∧ result (basic_chat service G prompt model) w'
              = result (basic_chat service G prompt model) w)
      ∧ (∀ prompt model t n p,
          emitted (chat_with_params service G prompt model t n p) w'
            = [ChatComplete (client G) (chat_with_params_request prompt model t n p)]
          ∧ emitted (chat_with_params service G prompt model t n p) w'
              = emitted (chat_with_params service G prompt model t n p) w
          ∧ result (chat_with_params service G prompt model t n p) w'
              = result (chat_with_params service G prompt model t n p) w)
      ∧ (∀ system_prompt user_prompt model t,
          emitted (chat_with_system service G system_prompt user_prompt model t) w'
            = [ChatComplete (client G)
                 (chat_with_system_request system_prompt user_prompt model t)]
          ∧ emitted (chat_with_system service G system_prompt user_prompt model t) w'
              = emitted (chat_with_system service G system_prompt user_prompt model t) w
          ∧ result (chat_with_system service G system_prompt user_prompt model t) w'
              = result (chat_with_system service G system_prompt user_prompt model t) w).
Proof.
  intros Hinit. split.
  - destruct (dotenv (environ w0) !! "MISTRAL_API_KEY") as [key |] eqn:Hkey.
    + destruct (decide (key = "")) as [-> | Hne].
      * destruct (module_init_missing_credential w0) as [Hres _]; [by right |].
        unfold result in Hres. by rewrite Hinit in Hres.
      * pose proof (module_init_run w0 key Hkey Hne) as Hrun.
        exists key. split; [done |].
        split; [rewrite Hrun in Hinit; by inversion Hinit |].
        eapply emitted_app; [exact Hrun | done].
    + destruct (module_init_missing_credential w0) as [Hres _]; [by left |].
      unfold result in Hres. by rewrite Hinit in Hres.
  - intros w env' w'. split; [| split]; intros.
    + erewrite !emitted_log by apply basic_chat_run.
      unfold result. by rewrite !basic_chat_run.
    + erewrite !emitted_log by apply chat_with_params_run.
      unfold result. by rewrite !chat_with_params_run.
    + erewrite !emitted_log by apply chat_with_system_run.
      unfold result. by rewrite !chat_with_system_run.
Qed.

(** ** [basic_chat] *)

(** C1.  For every prompt and model, [basic_chat] makes one call whose
    payload carries exactly one message, the dict with role "user" and the
    prompt as content (and no sampling knob); whenever the service answers
    with a response that has a first choice, the function returns that
    choice's text. *)
Theorem basic_chat_single_user_message (prompt : string) (model : option string)
    (w : world) :
  ∃ req,
    emitted (basic_chat service G prompt model) w = [ChatComplete (client G) req]
    ∧ messages req = [ {[ "role" := "user"; "content" := prompt ]} ]
    ∧ (∃ m, messages req = [m]
            ∧ m !! "role" = Some "user" ∧ m !! "content" = Some prompt
            ∧ dom m = {[ "role"; "content" ]})
    ∧ ∀ response choice rest,
        service (trace w) (client G) req = inr response →
        choices response = choice :: rest →
        result (basic_chat service G prompt model) w
          = Return (content (message choice)).
Proof.
  exists (basic_chat_request prompt model).
  split; [| split; [| split]].
  - eapply emitted_log, basic_chat_run.
  - reflexivity.
  - eexists. split; [reflexivity |].
    split; [apply message_role |]. split; [apply message_content | apply message_keys].
  - intros response choice rest Hanswer Hchoices.
    unfold result. rewrite basic_chat_run. simpl.
    rewrite Hanswer. simpl. by rewrite Hchoices.
Qed.

(** C8, as amended.  With no knob supplied and a response that has a first
    choice, [basic_chat] returns exactly that choice's text; the returned
    string is empty exactly when the service sent an empty text. *)
Theorem basic_chat_returns_first_text (prompt : string) (model : option string)
    (w : world) (response : ChatCompletionResponse)
    (choice : ChatCompletionChoice) (rest : list ChatCompletionChoice) :
  service (trace w) (client G) (basic_chat_request prompt model) = inr response →
  choices response = choice :: rest →
  result (basic_chat service G prompt model) w = Return (content (message choice))
  ∧ (result (basic_chat service G prompt model) w = Return ""
     ↔ content (message choice) = "").
Proof.
  intros Hanswer Hchoices.
  assert (result (basic_chat service G prompt model) w
          = Return (content (message choice))) as Hres.
  { unfold result. rewrite basic_chat_run. simpl.
    rewrite Hanswer. simpl. by rewrite Hchoices. }
  split; [exact Hres |].
  rewrite Hres. split; [by inversion 1 | by intros ->].
Qed.

(** C6.  When the service call raises, [basic_chat] ends with that very
    exception: one call was made, none was repeated, and no string is
    returned. *)
Theorem basic_chat_propagates_failure (prompt : string) (model : option string)
    (w : world) (e : exn) :
  service (trace w) (client G) (basic_chat_request prompt model) = inl e →
  result (basic_chat service G prompt model) w = Raise e
  ∧ emitted (basic_chat service G prompt model) w
      = [ChatComplete (client G) (basic_chat_request prompt model)]
  ∧ ∀ s, result (basic_chat service G prompt model) w ≠ Return s.
Proof.
  intros Hanswer.
  assert (result (basic_chat service G prompt model) w = Raise e) as Hres.
  { unfold result. rewrite basic_chat_run. simpl. by rewrite Hanswer. }
  split; [exact Hres |]. split.
  - eapply emitted_log, basic_chat_run.
  - intros s. by rewrite Hres.
Qed.

(** The two sibling functions propagate a failure of the service the same way. *)
Lemma chat_with_params_propagates_failure (prompt : string) (model : option string)
    (t : option float) (n : option Z) (p : option float) (w : world) (e : exn) :
  service (trace w) (client G) (chat_with_params_request prompt model t n p) = inl e →
  result (chat_with_params service G prompt model t n p) w = Raise e.
Proof.
  intros Hanswer. unfold result. rewrite chat_with_params_run. simpl.
  by rewrite Hanswer.
Qed.

Lemma chat_with_system_propagates_failure (system_prompt user_prompt : string)
    (model : option string) (t : option float) (w : world) (e : exn) :
  service (trace w) (client G)
    (chat_with_system_request system_prompt user_prompt model t) = inl e →
  result (chat_with_system service G system_prompt user_prompt model t) w = Raise e.
Proof.
  intros Hanswer. unfold result. rewrite chat_with_system_run. simpl.
  by rewrite Hanswer.
Qed.

(** ** [chat_with_params] *)

(** C2.  Whatever temperature, [max_tokens] or [top_p] the caller passes to
    [chat_with_params], the payload of the one outbound call carries that
    same value, each knob independently of what is (or is not) passed for
    the other two. *)
Theorem chat_with_params_forwards_knobs (prompt : string) (model : option string)
    (w : world) :
  (∀ (t : float) (n : option Z) (p : option float), ∃ req,
      payloads (emitted (chat_with_params service G prompt model (Some t) n p) w) = [req]
      ∧ temperature req = Some t)
  ∧ (∀ (t : option float) (n : Z) (p : option float), ∃ req,
      payloads (emitted (chat_with_params service G prompt model t (Some n) p) w) = [req]
      ∧ max_tokens req = Some n)
  ∧ (∀ (t : option float) (n : option Z) (p : float), ∃ req,
      payloads (emitted (chat_with_params service G prompt model t n (Some p)) w) = [req]
      ∧ top_p req = Some p).
Proof.
  split; [| split]; intros t n p; eexists;
    (split; [erewrite emitted_log by apply chat_with_params_run |]); reflexivity.
Qed.

(** C7.  No range is checked before sending: for every temperature,
    [max_tokens] and [top_p], in range or not, [chat_with_params] makes its
    one call with the three values unchanged, and its outcome is decided by
    the answer alone.  An exception can only be the one the service raised,
    or the [IndexError] of indexing an answer without choices. *)
Theorem chat_with_params_no_range_check (prompt : string) (model : option string)
    (t : float) (n : Z) (p : float) (w : world) :
  ∃ req,
    emitted (chat_with_params service G prompt model (Some t) (Some n) (Some p)) w
      = [ChatComplete (client G) req]
    ∧ temperature req = Some t ∧ max_tokens req = Some n ∧ top_p req = Some p
    ∧ result (chat_with_params service G prompt model (Some t) (Some n) (Some p)) w
        = first_text (service (trace w) (client G) req)
    ∧ ∀ e,
        result (chat_with_params service G prompt model (Some t) (Some n) (Some p)) w
          = Raise e →
        service (trace w) (client G) req = inl e
        ∨ ∃ response, service (trace w) (client G) req = inr response
                      ∧ choices response = []
                      ∧ e = IndexError "list index out of range".
Proof.
  exists (chat_with_params_request prompt model (Some t) (Some n) (Some p)).
  split; [eapply emitted_log, chat_with_params_run |].
  do 3 (split; [reflexivity |]).
  unfold result. rewrite chat_with_params_run. simpl.
  split; [reflexivity |].
  intros e. unfold first_text.
  destruct (service _ _ _) as [e' | response] eqn:Hanswer.
  - intros [= ->]. by left.
  - destruct (choices response) as [| choice rest] eqn:Hchoices; [| done].
    intros [= <-]. right. by exists response.
Qed.

(** C3, as amended.  Every knob may be left out by the caller.  [basic_chat]
    then sends a payload without any knob.  [chat_with_params] sends all
    three knobs in every call: one the caller left out goes out with the
    function's own default, temperature 0.7, [max_tokens] 256, [top_p] 1.0.
    [chat_with_system] sends the temperature (0.7 when left out) and never
    [max_tokens] or [top_p]. *)
Theorem omitted_knobs_get_defaults (prompt system_prompt : string)
    (model : option string) (w : world) :
  (∃ req,
      payloads (emitted (basic_chat service G prompt model) w) = [req]
      ∧ temperature req = None ∧ max_tokens req = None ∧ top_p req = None)
  ∧ (∀ (n : option Z) (p : option float), ∃ req,
      payloads (emitted (chat_with_params service G prompt model None n p) w) = [req]
      ∧ temperature req = Some 0.7%float)
  ∧ (∀ (t : option float) (p : option float), ∃ req,
      payloads (emitted (chat_with_params service G prompt model t None p) w) = [req]
      ∧ max_tokens req = Some 256)
  ∧ (∀ (t : option float) (n : option Z), ∃ req,
      payloads (emitted (chat_with_params service G prompt model t n None) w) = [req]
      ∧ top_p req = Some 1.0%float)
  ∧ (∀ (t : option float), ∃ req,
      payloads (emitted (chat_with_system service G system_prompt prompt model t) w) = [req]
      ∧ temperature req = Some (default 0.7%float t)
      ∧ max_tokens req = None ∧ top_p req = None).
Proof.
  split; [| split; [| split; [| split]]]; intros; eexists.
  - split; [erewrite emitted_log by apply basic_chat_run |]; done.
  - split; [erewrite emitted_log by apply chat_with_params_run |]; done.
  - split; [erewrite emitted_log by apply chat_with_params_run |]; done.
  - split; [erewrite emitted_log by apply chat_with_params_run |]; done.
  - split; [erewrite emitted_log by apply chat_with_system_run |]; done.
Qed.

(** ** [chat_with_system] *)

(** C4.  For every system prompt and user prompt, the payload of
    [chat_with_system] carries exactly two messages: the dict with role
    "system" and the system prompt first, the dict with role "user" and the
    user prompt second. *)
Theorem chat_with_system_two_messages (system_prompt user_prompt : string)
    (model : option string) (t : option float) (w : world) :
  ∃ req,
    emitted (chat_with_system service G system_prompt user_prompt model t) w
      = [ChatComplete (client G) req]
    ∧ messages req = [ {[ "role" := "system"; "content" := system_prompt ]};
                       {[ "role" := "user"; "content" := user_prompt ]} ]
    ∧ ∃ m1 m2, messages req = [m1; m2]
        ∧ m1 !! "role" = Some "system" ∧ m1 !! "content" = Some system_prompt
        ∧ m2 !! "role" = Some "user" ∧ m2 !! "content" = Some user_prompt.
Proof.
  exists (chat_with_system_request system_prompt user_prompt model t).
  split; [eapply emitted_log, chat_with_system_run |].
  split; [reflexivity |].
  do 2 eexists. split; [reflexivity |].
  repeat split; first [apply message_role | apply message_content].
Qed.

(** ** Indexing the first choice *)

Lemma first_text_no_choices (response : ChatCompletionResponse) :
  choices response = [] →
  first_text (inr response) = Raise (IndexError "list index out of range").
Proof. intros Hchoices. simpl. by rewrite Hchoices. Qed.

Lemma first_text_returns (response : ChatCompletionResponse) :
  (∃ s, first_text (inr response) = Return s) ↔ choices response ≠ [].
Proof.
  simpl. destruct (choices response) as [| choice rest].
  - split; [by intros [s Hs] | done].
  - split; [done | by eexists].
Qed.

(** C10.  In each of the three functions, an answer whose list of choices is
    empty makes the function raise [IndexError] instead of returning a
    string, and a string is returned exactly when the list is not empty. *)
Theorem empty_choices_raise (w : world) (response : ChatCompletionResponse) :
  (∀ prompt model,
      service (trace w) (client G) (basic_chat_request prompt model) = inr response →
      (choices response = [] →
         result (basic_chat service G prompt model) w
           = Raise (IndexError "list index out of range"))
      ∧ ((∃ s, result (basic_chat service G prompt model) w = Return s)
         ↔ choices response ≠ []))
  ∧ (∀ prompt model t n p,
      service (trace w) (client G) (chat_with_params_request prompt model t n p)
        = inr response →
      (choices response = [] →
         result (chat_with_params service G prompt model t n p) w
           = Raise (IndexError "list index out of range"))
      ∧ ((∃ s, result (chat_with_params service G prompt model t n p) w = Return s)
         ↔ choices response ≠ []))
  ∧ (∀ system_prompt user_prompt model t,
      service (trace w) (client G)
        (chat_with_system_request system_prompt user_prompt model t) = inr response →
      (choices response = [] →
         result (chat_with_system service G system_prompt user_prompt model t) w
           = Raise (IndexError "list index out of range"))
      ∧ ((∃ s, result (chat_with_system service G system_prompt user_prompt model t) w
                 = Return s)
         ↔ choices response ≠ [])).
Proof.
  split; [| split].
  - intros prompt model Hanswer. unfold result.
    rewrite basic_chat_run. cbn [fst]. rewrite Hanswer.
    split; [apply first_text_no_choices | apply first_text_returns].
  - intros prompt model t n p Hanswer. unfold result.
    rewrite chat_with_params_run. cbn [fst]. rewrite Hanswer.
    split; [apply first_text_no_choices | apply first_text_returns].
  - intros system_prompt user_prompt model t Hanswer. unfold result.
    rewrite chat_with_system_run. cbn [fst]. rewrite Hanswer.
    split; [apply first_text_no_choices | apply first_text_returns].
Qed.

End Properties.

(** * More on the functions *)

Section FunctionProperties.

Variable service :
  list event → Mistral → ChatRequest → exn + ChatCompletionResponse.
Variable G : globals.

Lemma emitted_snd {A : Type} (m : M A) (w : world) (l : list event) :
  trace (snd (m w)) = trace w ++ l → emitted m w = l.
Proof. intros Htrace. unfold emitted. rewrite Htrace. apply drop_app_length. Qed.

(** X1.  [get_client] returns a client exactly when [MISTRAL_API_KEY] holds
    a non-empty string, and the client carries that string as it is; it
    then has read the variable once and built one client. *)
Theorem get_client_returns_iff (w : world) (c : Mistral) :
  (result get_client w = Return c
   ↔ environ w !! "MISTRAL_API_KEY" = Some (api_key c) ∧ api_key c ≠ "")
  ∧ (result get_client w = Return c →
     emitted get_client w = [EnvironGet "MISTRAL_API_KEY"; MistralNew (api_key c)]).
Proof.
  assert (result get_client w = Return c →
          environ w !! "MISTRAL_API_KEY" = Some (api_key c) ∧ api_key c ≠ "") as Hif.
  { unfold result. intros Hres.
    destruct (environ w !! "MISTRAL_API_KEY") as [key |] eqn:Hkey.
    - destruct (decide (key = "")) as [-> | Hne].
      + rewrite get_client_missing in Hres by (by right). done.
      + rewrite (get_client_present w key) in Hres by done.
        simpl in Hres. by injection Hres as <-.
    - rewrite get_client_missing in Hres by (by left). done. }
  split; [split; [exact Hif |] |].
  - intros [Hkey Hne]. unfold result.
    rewrite (get_client_present w (api_key c)) by done. by destruct c.
  - intros Hres. destruct (Hif Hres) as [Hkey Hne].
    apply emitted_snd. rewrite (get_client_present w (api_key c)) by done.
    simpl. by rewrite <- app_assoc.
Qed.

(** X2.  Neither [get_client] nor any of the three functions changes the
    environment or rewrites what is already in the trace: a run only adds
    events after the ones that were there, and each of the three functions
    adds exactly one, its request, whether the call succeeds or not. *)
Theorem functions_only_append (w : world) :
  (environ (snd (get_client w)) = environ w
   ∧ trace w `prefix_of` trace (snd (get_client w)))
  ∧ (∀ prompt model,
      snd (basic_chat service G prompt model w)
      = extend w [ChatComplete (client G) (basic_chat_request prompt model)])
  ∧ (∀ prompt model t n p,
      snd (chat_with_params service G prompt model t n p w)
      = extend w [ChatComplete (client G) (chat_with_params_request prompt model t n p)])
  ∧ (∀ system_prompt user_prompt model t,
      snd (chat_with_system service G system_prompt user_prompt model t w)
      = extend w [ChatComplete (client G)
                    (chat_with_system_request system_prompt user_prompt model t)]).
Proof.
  split; [| split; [| split]].
  - destruct (environ w !! "MISTRAL_API_KEY") as [key |] eqn:Hkey.
    + destruct (decide (key = "")) as [-> | Hne].
      * rewrite get_client_missing by (by right). simpl.
        split; [done | by apply prefix_app_r].
      * rewrite (get_client_present w key) by done. simpl.
        split; [done |]. rewrite <- app_assoc. by apply prefix_app_r.
    + rewrite get_client_missing by (by left). simpl.
      split; [done | by apply prefix_app_r].
  - intros. by rewrite basic_chat_run.
  - intros. by rewrite chat_with_params_run.
  - intros. by rewrite chat_with_system_run.
Qed.

(** X3.  The model name goes out as the caller gave it, and as
    "mistral-small-latest" when the caller gave none, in all three
    functions; [chat_with_system] sends the caller's temperature unchanged. *)
Theorem model_and_temperature_forwarded (prompt system_prompt : string)
    (t : option float) (n : option Z) (p : option float) (w : world) :
  (∀ name : string,
      model <$> payloads (emitted (basic_chat service G prompt (Some name)) w)
        = [name]
      ∧ model <$> payloads (emitted (chat_with_params service G prompt (Some name) t n p) w)
        = [name]
      ∧ model <$> payloads (emitted (chat_with_system service G system_prompt prompt
                                       (Some name) t) w)
        = [name])
  ∧ model <$> payloads (emitted (basic_chat service G prompt None) w)
    = ["mistral-small-latest"]
  ∧ model <$> payloads (emitted (chat_with_params service G prompt None t n p) w)
    = ["mistral-small-latest"]
  ∧ model <$> payloads (emitted (chat_with_system service G system_prompt prompt None t) w)
    = ["mistral-small-latest"]
  ∧ (∀ (given : option string) (temp : float),
      temperature <$> payloads (emitted (chat_with_system service G system_prompt prompt
                                           given (Some temp)) w)
      = [Some temp]).
Proof.
  repeat split; intros;
    first [erewrite emitted_log by apply basic_chat_run
          | erewrite emitted_log by apply chat_with_params_run
          | erewrite emitted_log by apply chat_with_system_run];
    reflexivity.
Qed.

(** X4.  [chat_with_params] and [chat_with_system] return the text of the
    first choice of the answer; any further choice is ignored. *)
Theorem siblings_return_first_text (w : world) (response : ChatCompletionResponse)
    (choice : ChatCompletionChoice) (rest : list ChatCompletionChoice) :
  choices response = choice :: rest →
  (∀ prompt model t n p,
      service (trace w) (client G) (chat_with_params_request prompt model t n p)
        = inr response →
      result (chat_with_params service G prompt model t n p) w
        = Return (content (message choice)))
  ∧ (∀ system_prompt user_prompt model t,
      service (trace w) (client G)
        (chat_with_system_request system_prompt user_prompt model t) = inr response →
      result (chat_with_system service G system_prompt user_prompt model t) w
        = Return (content (message choice))).
Proof.
  intros Hchoices. split.
  - intros prompt model t n p Hanswer. unfold result.
    rewrite chat_with_params_run. cbn [fst]. rewrite Hanswer. simpl.
    by rewrite Hchoices.
  - intros system_prompt user_prompt model t Hanswer. unfold result.
    rewrite chat_with_system_run. cbn [fst]. rewrite Hanswer. simpl.
    by rewrite Hchoices.
Qed.

(** X5.  When the service call raises, [chat_with_params] and
    [chat_with_system] end with that very exception after their one call:
    nothing is caught and nothing is sent again. *)
Theorem siblings_propagate_failure (w : world) (e : exn) :
  (∀ prompt model t n p,
      service (trace w) (client G) (chat_with_params_request prompt model t n p)
        = inl e →
      result (chat_with_params service G prompt model t n p) w = Raise e
      ∧ emitted (chat_with_params service G prompt model t n p) w
          = [ChatComplete (client G) (chat_with_params_request prompt model t n p)])
  ∧ (∀ system_prompt user_prompt model t,
      service (trace w) (client G)
        (chat_with_system_request system_prompt user_prompt model t) = inl e →
      result (chat_with_system service G system_prompt user_prompt model t) w = Raise e
      ∧ emitted (chat_with_system service G system_prompt user_prompt model t) w
          = [ChatComplete (client G)
               (chat_with_system_request system_prompt user_prompt model t)]).
Proof.
  split.
  - intros prompt model t n p Hanswer.
    split; [by apply chat_with_params_propagates_failure |].
    eapply emitted_log, chat_with_params_run.
  - intros system_prompt user_prompt model t Hanswer.
    split; [by apply chat_with_system_propagates_failure |].
    eapply emitted_log, chat_with_system_run.
Qed.

Lemma system_prompt_step_run (name : string) (system_prompt : option string)
    (w : world) :
  let header := Stdout (newline +:+ "--- " +:+ name +:+ " ---") in
  let req := system_prompt_request (name, system_prompt) in
  system_prompt_step service G user_prompt (name, system_prompt) w
  = match first_text (service (trace w ++ [header]) (client G) req) with
    | Return response =>
        (Return tt, extend w [header; ChatComplete (client G) req; Stdout response])
    | Raise e => (Raise e, extend w [header; ChatComplete (client G) req])
    end.
Proof.
  intros header req. unfold system_prompt_step, mbind. unfold M_bind at 1.
  unfold print at 1, emit. cbv beta iota. unfold M_bind at 1.
  assert (∀ m : M string,
            (∀ w', m w' = (first_text (service (trace w') (client G) req),
                           log (ChatComplete (client G) req) w')) →
            match m (log header w) with
            | (Return a, w') => print a w'
            | (Raise e, w') => (Raise e, w')
            end
            = match first_text (service (trace w ++ [header]) (client G) req) with
              | Return response =>
                  (Return tt,
                   extend w [header; ChatComplete (client G) req; Stdout response])
              | Raise e => (Raise e, extend w [header; ChatComplete (client G) req])
              end) as Hstep.
  { intros m Hm. rewrite Hm. simpl.
    destruct (first_text _) as [response | e];
      unfold print, emit, log, extend; simpl; by rewrite <- !app_assoc. }
  destruct system_prompt as [[| a s] |]; apply Hstep; intros w'.
  - apply chat_with_params_run.
  - apply chat_with_system_run.
  - apply chat_with_params_run.
Qed.

(** X6.  One round of the last experiment sends one request.  A non-empty
    system prompt goes out as a system message before the user's question;
    with no system prompt, or an empty one, the question goes out alone with
    [max_tokens] 200, so an empty system message is never sent. *)
Theorem system_prompt_step_dispatch (name : string) (w : world) :
  (∀ system_prompt, system_prompt ≠ "" →
      payloads (emitted (system_prompt_step service G user_prompt
                           (name, Some system_prompt)) w)
      = [chat_with_system_request system_prompt user_prompt None None])
  ∧ payloads (emitted (system_prompt_step service G user_prompt (name, None)) w)
    = [chat_with_params_request user_prompt None None (Some 200) None]
  ∧ payloads (emitted (system_prompt_step service G user_prompt (name, Some "")) w)
    = [chat_with_params_request user_prompt None None (Some 200) None].
Proof.
  assert (∀ system_prompt,
            payloads (emitted (system_prompt_step service G user_prompt
                                 (name, system_prompt)) w)
            = [system_prompt_request (name, system_prompt)]) as Hsent.
  { intros system_prompt.
    pose proof (system_prompt_step_run name system_prompt w) as Hrun.
    cbv zeta in Hrun.
    destruct (first_text _) as [response | e];
      (erewrite emitted_snd; [| rewrite Hrun; reflexivity]); done. }
  split; [| split].
  - intros system_prompt Hne. rewrite Hsent. by destruct system_prompt.
  - by rewrite Hsent.
  - by rewrite Hsent.
Qed.

End FunctionProperties.

(** * The script as a whole *)

Section ScriptProperties.

Variable dotenv : gmap string string → gmap string string.
Variable service :
  list event → Mistral → ChatRequest → exn + ChatCompletionResponse.
Variable float_str : float → string.

(** ** Composing behaviours *)

Lemma extend_nil (w : world) : extend w [] = w.
Proof. destruct w as [env t]. unfold extend. simpl. by rewrite app_nil_r. Qed.

Lemma extend_extend (w : world) (l1 l2 : list event) :
  extend (extend w l1) l2 = extend w (l1 ++ l2).
Proof. unfold extend. simpl. by rewrite app_assoc. Qed.

Lemma payloads_app (l1 l2 : list event) :
  payloads (l1 ++ l2) = payloads l1 ++ payloads l2.
Proof. apply omap_app. Qed.

Lemma behaves_ret {A : Type} (Q : event → Prop) (a : A) :
  behaves service Q [] (mret a).
Proof.
  intros w. exists []. simpl.
  split; [by rewrite extend_nil |]. by repeat split.
Qed.

Lemma behaves_print (Q : event → Prop) (line : string) :
  Q (Stdout line) → behaves service Q [] (print line).
Proof.
  intros HQ w. exists [Stdout line]. simpl.
  split; [done |]. split; [by constructor |]. by split.
Qed.

Lemma behaves_bind {A B : Type} (Q : event → Prop) (r1 r2 : list ChatRequest)
    (m : M A) (k : A → M B) :
  behaves service Q r1 m → (∀ a, behaves service Q r2 (k a)) →
  behaves service Q (r1 ++ r2) (m ≫= k).
Proof.
  intros Hm Hk w. destruct (Hm w) as (l1 & Hw1 & HQ1 & Hpre1 & Hout1).
  unfold mbind, M_bind.
  destruct (m w) as [[a | e] w1]; simpl in Hw1, Hout1; subst w1.
  - destruct (Hk a (extend w l1)) as (l2 & Hw2 & HQ2 & Hpre2 & Hout2).
    exists (l1 ++ l2).
    split; [by rewrite Hw2, extend_extend |].
    split; [by apply Forall_app |].
    rewrite payloads_app, Hout1.
    split; [by apply prefix_app |].
    destruct (fst (k a (extend w l1))) as [b | e].
    + by rewrite Hout2.
    + destruct Hout2 as (l' & c & req & -> & Htext).
      exists (l1 ++ l'), c, req. simpl in Htext.
      split; by rewrite app_assoc.
  - exists l1. simpl.
    split; [done |]. split; [done |].
    split; [by apply prefix_app_r | done].
Qed.

(** A computation that makes one call and indexes the answer. *)
Lemma behaves_call {A : Type} (Q : event → Prop) (c : Mistral) (req : ChatRequest)
    (m : M string) :
  (∀ w, m w = (first_text (service (trace w) c req), log (ChatComplete c req) w)) →
  Q (ChatComplete c req) →
  behaves service Q [req] m.
Proof.
  intros Hrun HQ w. exists [ChatComplete c req]. rewrite Hrun. simpl.
  split; [done |]. split; [by constructor |]. split; [done |].
  destruct (first_text (service (trace w) c req)) as [text | e] eqn:Htext; [done |].
  exists [], c, req. split; [done |]. by rewrite app_nil_r.
Qed.

Lemma behaves_for_in {A : Type} (Q : event → Prop) (f : A → ChatRequest)
    (xs : list A) (body : A → M unit) :
  (∀ x, behaves service Q [f x] (body x)) →
  behaves service Q (f <$> xs) (for_in xs body).
Proof.
  intros Hbody. induction xs as [| x xs IH]; simpl.
  - apply behaves_ret.
  - apply (behaves_bind Q [f x] (f <$> xs)); [apply Hbody | intros _; apply IH].
Qed.

(** ** The cells *)

Section CellProperties.

Variable G : globals.

Let Q : event → Prop := prints_or_calls (client G).

Lemma behaves_print_then {B : Type} (reqs : list ChatRequest) (line : string)
    (k : unit → M B) :
  (∀ u, behaves service Q reqs (k u)) →
  behaves service Q reqs (print line ≫= k).
Proof.
  intros Hk. apply (behaves_bind Q [] reqs); [by apply behaves_print | exact Hk].
Qed.

Lemma behaves_basic_chat (prompt : string) (model : option string) :
  behaves service Q [basic_chat_request prompt model]
    (basic_chat service G prompt model).
Proof. eapply (behaves_call (A:=string)); [apply basic_chat_run | done]. Qed.

Lemma behaves_chat_with_params (prompt : string) (model : option string)
    (t : option float) (n : option Z) (p : option float) :
  behaves service Q [chat_with_params_request prompt model t n p]
    (chat_with_params service G prompt model t n p).
Proof. eapply (behaves_call (A:=string)); [apply chat_with_params_run | done]. Qed.

Lemma behaves_chat_with_system (system_prompt user_prompt : string)
    (model : option string) (t : option float) :
  behaves service Q [chat_with_system_request system_prompt user_prompt model t]
    (chat_with_system service G system_prompt user_prompt model t).
Proof. eapply (behaves_call (A:=string)); [apply chat_with_system_run | done]. Qed.

(** Goes through the prints that open a cell, into the body of its loop. *)
Ltac cell_steps :=
  repeat (apply behaves_print_then; intros _);
  try (apply behaves_for_in; intros ?;
       repeat (apply behaves_print_then; intros _)).

Lemma behaves_call_then_print (req : ChatRequest) (m : M string)
    (k : string → M unit) :
  behaves service Q [req] m →
  (∀ response, behaves service Q [] (k response)) →
  behaves service Q [req] (m ≫= k).
Proof. intros Hm Hk. by apply (behaves_bind Q [req] []). Qed.

Lemma behaves_test_request :
  behaves service Q [basic_chat_request test_prompt None] (test_request service G).
Proof.
  unfold test_request.
  apply behaves_call_then_print; [apply behaves_basic_chat |].
  intros response. apply behaves_print_then. intros _. by apply behaves_print.
Qed.

Lemma behaves_temperature_experiment :
  behaves service Q
    ((λ temp, chat_with_params_request temperature_prompt None
                (Some temp) (Some 100) None) <$> [0.0; 0.5; 1.0; 1.5]%float)
    (temperature_experiment service float_str G).
Proof.
  unfold temperature_experiment. cell_steps.
  apply behaves_call_then_print; [apply behaves_chat_with_params |].
  intros response. by apply behaves_print.
Qed.

Lemma behaves_max_tokens_experiment :
  behaves service Q
    ((λ max_tokens, chat_with_params_request max_tokens_prompt None
                      (Some 0.7%float) (Some max_tokens) None) <$> [50; 100; 200])
    (max_tokens_experiment service G).
Proof.
  unfold max_tokens_experiment. cell_steps.
  apply behaves_call_then_print; [apply behaves_chat_with_params |].
  intros response. apply behaves_print_then. intros _. by apply behaves_print.
Qed.

Lemma behaves_top_p_experiment :
  behaves service Q
    ((λ top_p, chat_with_params_request top_p_prompt None
                 (Some 0.8%float) (Some 100) (Some top_p)) <$> [0.1; 0.5; 0.9; 1.0]%float)
    (top_p_experiment service float_str G).
Proof.
  unfold top_p_experiment. cell_steps.
  apply behaves_call_then_print; [apply behaves_chat_with_params |].
  intros response. by apply behaves_print.
Qed.

Lemma behaves_system_prompt_step (entry : string * option string) :
  behaves service Q [system_prompt_request entry]
    (system_prompt_step service G user_prompt entry).
Proof.
  destruct entry as [name [[| a system_prompt] |]];
    unfold system_prompt_step, system_prompt_request; simpl snd;
    apply behaves_print_then; intros _;
    (apply behaves_call_then_print;
       [first [apply behaves_chat_with_system | apply behaves_chat_with_params] |]);
    intros response; by apply behaves_print.
Qed.

Lemma behaves_system_prompt_experiment :
  behaves service Q (system_prompt_request <$> system_prompts)
    (system_prompt_experiment service G).
Proof.
  unfold system_prompt_experiment.
  repeat (apply behaves_print_then; intros _).
  apply behaves_for_in. apply behaves_system_prompt_step.
Qed.

Lemma behaves_after_init :
  behaves service Q script_requests (after_init service float_str G).
Proof.
  unfold after_init, script_requests.
  apply behaves_bind; [apply behaves_test_request | intros _].
  apply behaves_bind; [apply behaves_temperature_experiment | intros _].
  apply behaves_bind; [apply behaves_max_tokens_experiment | intros _].
  apply behaves_bind; [apply behaves_top_p_experiment | intros _].
  apply behaves_system_prompt_experiment.
Qed.

Lemma behaves_sent {A : Type} (reqs : list ChatRequest) (m : M A)
    (P : ChatRequest → Prop) (w : world) :
  behaves service Q reqs m → Forall P reqs → Forall P (payloads (emitted m w)).
Proof.
  intros Hm HP. destruct (Hm w) as (l & Hw & _ & [rest ->] & _).
  rewrite (emitted_snd m w l) by (by rewrite Hw).
  by apply Forall_app in HP as [HP _].
Qed.

(** X12.  Each of the three knob experiments varies one knob only: every
    request of the temperature experiment has [max_tokens] 100 and [top_p]
    1.0, every request of the [max_tokens] experiment has temperature 0.7
    and [top_p] 1.0, every request of the [top_p] experiment has temperature
    0.8 and [max_tokens] 100; within an experiment the model and the single
    user message are the same in all requests. *)
Theorem experiments_vary_one_knob (w : world) :
  Forall (λ req, model req = "mistral-small-latest"
                 ∧ messages req = [user_message temperature_prompt]
                 ∧ max_tokens req = Some 100 ∧ top_p req = Some 1.0%float)
    (payloads (emitted (temperature_experiment service float_str G) w))
  ∧ Forall (λ req, model req = "mistral-small-latest"
                   ∧ messages req = [user_message max_tokens_prompt]
                   ∧ temperature req = Some 0.7%float ∧ top_p req = Some 1.0%float)
      (payloads (emitted (max_tokens_experiment service G) w))
  ∧ Forall (λ req, model req = "mistral-small-latest"
                   ∧ messages req = [user_message top_p_prompt]
                   ∧ temperature req = Some 0.8%float ∧ max_tokens req = Some 100)
      (payloads (emitted (top_p_experiment service float_str G) w)).
Proof.
  split; [| split].
  - eapply behaves_sent; [apply behaves_temperature_experiment |].
    by repeat constructor.
  - eapply behaves_sent; [apply behaves_max_tokens_experiment |].
    by repeat constructor.
  - eapply behaves_sent; [apply behaves_top_p_experiment |].
    by repeat constructor.
Qed.

(** X13.  The system-prompt experiment sends two kinds of requests.  The
    round without a system prompt sends the question alone, with
    temperature 0.7, [max_tokens] 200 and [top_p] 1.0; a round with a
    system prompt sends a non-empty system message and then the question,
    with temperature 0.7 and neither [max_tokens] nor [top_p]. *)
Theorem system_prompt_experiment_requests (w : world) :
  Forall (λ req,
            model req = "mistral-small-latest"
            ∧ temperature req = Some 0.7%float
            ∧ ((messages req = [user_message user_prompt]
                ∧ max_tokens req = Some 200 ∧ top_p req = Some 1.0%float)
               ∨ (∃ system_prompt, system_prompt ≠ ""
                    ∧ messages req = [system_message system_prompt;
                                      user_message user_prompt]
                    ∧ max_tokens req = None ∧ top_p req = None)))
    (payloads (emitted (system_prompt_experiment service G) w)).
Proof.
  eapply behaves_sent; [apply behaves_system_prompt_experiment |].
  repeat (constructor;
          [split; [done |]; split; [done |];
           first [by left
                 | right; eexists; (split; [| by repeat split]); discriminate] |]).
  constructor.
Qed.

End CellProperties.

(** ** The whole run *)

Lemma main_stops (w : world) :
  dotenv (environ w) !! "MISTRAL_API_KEY" = None
  ∨ dotenv (environ w) !! "MISTRAL_API_KEY" = Some "" →
  main dotenv service float_str w
  = (Raise (ValueError missing_key_message),
     {| environ := dotenv (environ w);
        trace := trace w ++ [LoadDotenv; EnvironGet "MISTRAL_API_KEY"] |}).
Proof.
  intros Hkey.
  unfold main, module_init, mbind. unfold M_bind at 1 2. unfold load_dotenv.
  cbv beta iota. unfold M_bind at 1.
  rewrite get_client_missing by done.
  unfold log. simpl. by rewrite <- app_assoc.
Qed.

Lemma main_goes_on (w : world) (key : string) :
  dotenv (environ w) !! "MISTRAL_API_KEY" = Some key → key ≠ "" →
  ∃ l,
    snd (main dotenv service float_str w)
    = {| environ := dotenv (environ w); trace := trace w ++ init_events key ++ l |}
    ∧ Forall (prints_or_calls {| api_key := key |}) l
    ∧ payloads l `prefix_of` script_requests
    ∧ match fst (main dotenv service float_str w) with
      | Return _ => payloads l = script_requests
      | Raise e =>
          ∃ l' c req, l = l' ++ [ChatComplete c req]
            ∧ first_text (service (trace w ++ init_events key ++ l') c req) = Raise e
      end.
Proof.
  intros Hkey Hne.
  unfold main, mbind, M_bind. rewrite (module_init_run dotenv w key) by done.
  set (G := {| client := {| api_key := key |} |}).
  set (w1 := {| environ := dotenv (environ w); trace := _ |}).
  destruct (behaves_after_init G w1) as (l & Hw & HQ & Hpre & Hout).
  exists l. split; [| split; [exact HQ | split; [exact Hpre |]]].
  - rewrite Hw. unfold extend, w1, init_events. simpl. by rewrite <- app_assoc.
  - destruct (fst (after_init service float_str G w1)) as [u | e]; [exact Hout |].
    destruct Hout as (l' & c & req & -> & Htext).
    exists l', c, req. split; [done |].
    revert Htext. unfold w1, init_events. simpl. by rewrite <- app_assoc.
Qed.

Lemma main_stops_observed (w : world) :
  dotenv (environ w) !! "MISTRAL_API_KEY" = None
  ∨ dotenv (environ w) !! "MISTRAL_API_KEY" = Some "" →
  result (main dotenv service float_str) w = Raise (ValueError missing_key_message)
  ∧ emitted (main dotenv service float_str) w
      = [LoadDotenv; EnvironGet "MISTRAL_API_KEY"].
Proof.
  intros Hkey. pose proof (main_stops w Hkey) as Hrun.
  split; [unfold result; by rewrite Hrun |].
  apply emitted_snd. by rewrite Hrun.
Qed.

(** X7.  Without a credential the script stops at the [ValueError] of
    [get_client]: nothing is printed, no client is built, no request is
    sent, and nothing of the rest of the script runs. *)
Theorem main_without_credential (w : world) :
  dotenv (environ w) !! "MISTRAL_API_KEY" = None
  ∨ dotenv (environ w) !! "MISTRAL_API_KEY" = Some "" →
  result (main dotenv service float_str) w = Raise (ValueError missing_key_message)
  ∧ emitted (main dotenv service float_str) w
      = [LoadDotenv; EnvironGet "MISTRAL_API_KEY"]
  ∧ payloads (emitted (main dotenv service float_str) w) = [].
Proof.
  intros Hkey. destruct (main_stops_observed w Hkey) as [Hres Hev].
  split; [exact Hres |]. split; [exact Hev | by rewrite Hev].
Qed.

(** X8.  With a credential, the whole run reads [MISTRAL_API_KEY] once and
    builds one client from it; everything after that is a print or a
    request sent through that client, and the environment stays what
    [load_dotenv] made it. *)
Theorem main_one_client (w : world) (key : string) :
  dotenv (environ w) !! "MISTRAL_API_KEY" = Some key → key ≠ "" →
  ∃ l,
    emitted (main dotenv service float_str) w = init_events key ++ l
    ∧ Forall (prints_or_calls {| api_key := key |}) l
    ∧ environ (snd (main dotenv service float_str w)) = dotenv (environ w).
Proof.
  intros Hkey Hne.
  destruct (main_goes_on w key Hkey Hne) as (l & Hw & HQ & _).
  exists l. split; [| split; [exact HQ |]].
  - apply emitted_snd. by rewrite Hw.
  - by rewrite Hw.
Qed.

Lemma main_payloads (w : world) :
  payloads (emitted (main dotenv service float_str) w) `prefix_of` script_requests
  ∧ ∀ u, result (main dotenv service float_str) w = Return u →
         payloads (emitted (main dotenv service float_str) w) = script_requests.
Proof.
  destruct (dotenv (environ w) !! "MISTRAL_API_KEY") as [key |] eqn:Hkey.
  - destruct (decide (key = "")) as [-> | Hne].
    + destruct (main_stops_observed w) as [Hres Hev]; [by right |].
      rewrite Hev, Hres. split; [apply prefix_nil | done].
    + destruct (main_goes_on w key Hkey Hne) as (l & Hw & _ & Hpre & Hout).
      assert (emitted (main dotenv service float_str) w = init_events key ++ l) as ->
        by (apply emitted_snd; by rewrite Hw).
      rewrite payloads_app. simpl. split; [exact Hpre |].
      intros u Hres. unfold result in Hres. by rewrite Hres in Hout.
  - destruct (main_stops_observed w) as [Hres Hev]; [by left |].
    rewrite Hev, Hres. split; [apply prefix_nil | done].
Qed.

(** X9.  Whatever the service answers, the requests of a run are the first
    ones of a fixed list of sixteen: the script never sends more than
    sixteen requests, none that depends on an answer, and it sends all
    sixteen when it runs to the end. *)
Theorem main_request_budget (w : world) :
  payloads (emitted (main dotenv service float_str) w) `prefix_of` script_requests
  ∧ (length (payloads (emitted (main dotenv service float_str) w)) ≤ 16)%nat
  ∧ ∀ u, result (main dotenv service float_str) w = Return u →
         payloads (emitted (main dotenv service float_str) w) = script_requests.
Proof.
  destruct (main_payloads w) as [Hpre Hall].
  split; [exact Hpre |]. split; [| exact Hall].
  by apply prefix_length in Hpre.
Qed.



End ScriptProperties.

(** * Concrete runs *)

(** ** Building the client *)

Lemma get_client_missing_credential_witness :
  environ world_without_key !! "MISTRAL_API_KEY" = None
  ∧ result get_client world_without_key = Raise (ValueError missing_key_message)
  ∧ emitted get_client world_without_key = [EnvironGet "MISTRAL_API_KEY"]
  ∧ payloads (emitted get_client world_without_key) = [].
Proof.
  split; [reflexivity |].
  apply (get_client_missing_credential world_without_key).
  left. reflexivity.
Defined.

Example get_client_empty_key :
  get_client world_with_empty_key
  = (Raise (ValueError missing_key_message),
     log (EnvironGet "MISTRAL_API_KEY") world_with_empty_key).
Proof. apply get_client_missing. right. reflexivity. Qed.

Example get_client_with_key :
  get_client world_with_key
  = (Return {| api_key := "secret" |},
     log (MistralNew "secret") (log (EnvironGet "MISTRAL_API_KEY") world_with_key)).
Proof. by apply get_client_present. Qed.

Example module_init_with_key :
  module_init no_dotenv world_with_key = (Return sample_globals, world_after_init).
Proof. reflexivity. Qed.

(** After the initialisation the variable is removed from the environment;
    the next call still goes through the client built from "secret". *)
Lemma client_built_once_and_shared_witness :
  module_init no_dotenv world_with_key = (Return sample_globals, world_after_init)
  ∧ emitted (module_init no_dotenv) world_with_key
      = [LoadDotenv; EnvironGet "MISTRAL_API_KEY"; MistralNew "secret";
         Stdout "Клиент Mistral API инициализирован!"]
  ∧ emitted (basic_chat mock_hello sample_globals "Say hi" None)
      {| environ := ∅; trace := trace world_after_init |}
      = [ChatComplete {| api_key := "secret" |} (basic_chat_request "Say hi" None)]
  ∧ result (basic_chat mock_hello sample_globals "Say hi" None)
      {| environ := ∅; trace := trace world_after_init |}
      = result (basic_chat mock_hello sample_globals "Say hi" None) world_after_init.
Proof.
  assert (module_init no_dotenv world_with_key = (Return sample_globals, world_after_init))
    as Hrun by reflexivity.
  pose proof (client_built_once_and_shared mock_hello sample_globals no_dotenv
                world_with_key world_after_init Hrun)
    as [[key [Hkey [Hclient Hinit]]] Hcalls].
  split; [exact Hrun |].
  split.
  - rewrite Hinit. by injection Hclient as <-.
  - destruct (Hcalls world_after_init ∅) as [Hbasic _].
    destruct (Hbasic "Say hi" None) as [Hsent [_ Hsame]].
    split; [exact Hsent | exact Hsame].
Defined.

(** ** [basic_chat] *)

Example basic_chat_hello :
  basic_chat mock_hello sample_globals "Say hi" (Some "test-model") world_after_init
  = (Return "Hello!",
     log (ChatComplete {| api_key := "secret" |}
            {| model := "test-model";
               messages := [ {[ "role" := "user"; "content" := "Say hi" ]} ];
               temperature := None; max_tokens := None; top_p := None |})
       world_after_init).
Proof. reflexivity. Qed.

Lemma basic_chat_single_user_message_witness :
  ∃ req,
    emitted (basic_chat mock_hello sample_globals "Say hi" None) world_after_init
      = [ChatComplete (client sample_globals) req]
    ∧ messages req = [ {[ "role" := "user"; "content" := "Say hi" ]} ]
    ∧ result (basic_chat mock_hello sample_globals "Say hi" None) world_after_init
        = Return "Hello!".
Proof.
  destruct (basic_chat_single_user_message mock_hello sample_globals "Say hi" None
              world_after_init) as [req [Hsent [Hmessages [_ Hreturn]]]].
  exists req. split; [exact Hsent |]. split; [exact Hmessages |].
  apply (Hreturn {| choices := [ {| message := {| content := "Hello!" |} |} ] |}
           {| message := {| content := "Hello!" |} |} []); reflexivity.
Defined.

Lemma basic_chat_propagates_failure_witness :
  mock_failing (trace world_after_init) (client sample_globals)
    (basic_chat_request "Say hi" None) = inl unauthorized
  ∧ result (basic_chat mock_failing sample_globals "Say hi" None) world_after_init
      = Raise unauthorized
  ∧ emitted (basic_chat mock_failing sample_globals "Say hi" None) world_after_init
      = [ChatComplete (client sample_globals) (basic_chat_request "Say hi" None)]
  ∧ ∀ s, result (basic_chat mock_failing sample_globals "Say hi" None) world_after_init
         ≠ Return s.
Proof.
  split; [reflexivity |].
  apply (basic_chat_propagates_failure mock_failing sample_globals "Say hi" None
           world_after_init unauthorized).
  reflexivity.
Defined.

Lemma basic_chat_returns_first_text_witness :
  result (basic_chat mock_hello sample_globals "Say hi" (Some "test-model"))
    world_after_init = Return "Hello!"
  ∧ (result (basic_chat mock_hello sample_globals "Say hi" (Some "test-model"))
       world_after_init = Return ""
     ↔ "Hello!" = "").
Proof.
  apply (basic_chat_returns_first_text mock_hello sample_globals "Say hi"
           (Some "test-model") world_after_init
           {| choices := [ {| message := {| content := "Hello!" |} |} ] |}
           {| message := {| content := "Hello!" |} |} []);
    reflexivity.
Defined.

(** C8, as stated, fails: the answer below is a well-formed list of one
    choice, and [basic_chat] returns the empty string it carries. *)
Lemma blank_text_is_returned :
  (∃ choice,
      mock_blank (trace world_after_init) (client sample_globals)
        (basic_chat_request "Say hi" None) = inr {| choices := [choice] |})
  ∧ result (basic_chat mock_blank sample_globals "Say hi" None) world_after_init
      = Return "".
Proof. split; [by eexists | reflexivity]. Qed.

(** ** [chat_with_params] *)

(** C3, as stated, fails: called with the prompt alone, [chat_with_params]
    sends all three knobs, with the values 0.7, 256 and 1.0. *)
Lemma omitted_knobs_are_sent :
  ∃ req,
    payloads (emitted (chat_with_params mock_hello sample_globals "X" None None None None)
                world_after_init) = [req]
    ∧ temperature req = Some 0.7%float
    ∧ max_tokens req = Some 256
    ∧ top_p req = Some 1.0%float
    ∧ temperature req ≠ None ∧ max_tokens req ≠ None ∧ top_p req ≠ None.
Proof.
  exists (chat_with_params_request "X" None None None None).
  repeat split; done.
Qed.

Example chat_with_params_max_tokens_50 :
  payloads (emitted (chat_with_params mock_hello sample_globals "X" None None (Some 50) None)
              world_after_init)
  = [ {| model := "mistral-small-latest";
         messages := [ {[ "role" := "user"; "content" := "X" ]} ];
         temperature := Some 0.7%float; max_tokens := Some 50;
         top_p := Some 1.0%float |} ].
Proof. reflexivity. Qed.

(** Values outside of the documented ranges go out as they are. *)
Example chat_with_params_out_of_range :
  chat_with_params mock_hello sample_globals "X" None
    (Some 5.0%float) (Some (-3)) (Some 7.5%float) world_after_init
  = (Return "Hello!",
     log (ChatComplete {| api_key := "secret" |}
            {| model := "mistral-small-latest";
               messages := [ {[ "role" := "user"; "content" := "X" ]} ];
               temperature := Some 5.0%float; max_tokens := Some (-3);
               top_p := Some 7.5%float |})
       world_after_init).
Proof. reflexivity. Qed.

(** ** An answer without choices *)

Lemma empty_choices_raise_witness :
  choices {| choices := [] |} = []
  ∧ result (basic_chat mock_no_choices sample_globals "Say hi" None) world_after_init
      = Raise (IndexError "list index out of range")
  ∧ result (chat_with_params mock_no_choices sample_globals "Say hi" None None None None)
      world_after_init
      = Raise (IndexError "list index out of range")
  ∧ result (chat_with_system mock_no_choices sample_globals "Be brief" "Say hi" None None)
      world_after_init
      = Raise (IndexError "list index out of range").
Proof.
  destruct (empty_choices_raise mock_no_choices sample_globals world_after_init
              {| choices := [] |}) as [Hbasic [Hparams Hsystem]].
  split; [reflexivity |]. split; [| split].
  - apply (Hbasic "Say hi" None); reflexivity.
  - apply (Hparams "Say hi" None None None None); reflexivity.
  - apply (Hsystem "Be brief" "Say hi" None None); reflexivity.
Defined.

Example one_choice_chat_with_system :
  chat_with_system mock_hello sample_globals "Be brief" "Say hi" None None world_after_init
  = (Return "Hello!",
     log (ChatComplete {| api_key := "secret" |}
            {| model := "mistral-small-latest";
               messages := [ {[ "role" := "system"; "content" := "Be brief" ]};
                             {[ "role" := "user"; "content" := "Say hi" ]} ];
               temperature := Some 0.7%float; max_tokens := None; top_p := None |})
       world_after_init).
Proof. reflexivity. Qed.

(** ** More on the functions *)

Lemma get_client_returns_iff_witness :
  result get_client world_with_key = Return {| api_key := "secret" |}
  ∧ emitted get_client world_with_key
    = [EnvironGet "MISTRAL_API_KEY"; MistralNew "secret"].
Proof.
  destruct (get_client_returns_iff world_with_key {| api_key := "secret" |})
    as [[_ Hreturns] Hevents].
  assert (result get_client world_with_key = Return {| api_key := "secret" |}) as Hres.
  { apply Hreturns. split; [reflexivity | discriminate]. }
  split; [exact Hres | exact (Hevents Hres)].
Defined.

(** A key made of blanks is a key: it is not trimmed. *)
Example get_client_blank_key :
  result get_client {| environ := {[ "MISTRAL_API_KEY" := "  " ]}; trace := [] |}
  = Return {| api_key := "  " |}.
Proof. reflexivity. Qed.

Lemma siblings_return_first_text_witness :
  result (chat_with_params mock_two_choices sample_globals "X" None None None None)
    world_after_init = Return "first"
  ∧ result (chat_with_system mock_two_choices sample_globals "Be brief" "X" None None)
      world_after_init = Return "first".
Proof.
  destruct (siblings_return_first_text mock_two_choices sample_globals world_after_init
              {| choices := [ {| message := {| content := "first" |} |};
                              {| message := {| content := "second" |} |} ] |}
              {| message := {| content := "first" |} |}
              [ {| message := {| content := "second" |} |} ] eq_refl)
    as [Hparams Hsystem].
  split.
  - apply (Hparams "X" None None None None). reflexivity.
  - apply (Hsystem "Be brief" "X" None None). reflexivity.
Defined.

Lemma siblings_propagate_failure_witness :
  result (chat_with_params mock_failing sample_globals "X" None None None None)
    world_after_init = Raise unauthorized
  ∧ result (chat_with_system mock_failing sample_globals "Be brief" "X" None None)
      world_after_init = Raise unauthorized.
Proof.
  destruct (siblings_propagate_failure mock_failing sample_globals world_after_init
              unauthorized) as [Hparams Hsystem].
  split.
  - apply (Hparams "X" None None None None). reflexivity.
  - apply (Hsystem "Be brief" "X" None None). reflexivity.
Defined.

Lemma system_prompt_step_dispatch_witness :
  payloads (emitted (system_prompt_step mock_hello sample_globals user_prompt
                       ("Поэт", Some "Ты поэт. Отвечай в стихотворной форме."))
              world_after_init)
  = [ {| model := "mistral-small-latest";
         messages := [ {[ "role" := "system";
                          "content" := "Ты поэт. Отвечай в стихотворной форме." ]};
                       {[ "role" := "user"; "content" := user_prompt ]} ];
         temperature := Some 0.7%float; max_tokens := None; top_p := None |} ]
  ∧ payloads (emitted (system_prompt_step mock_hello sample_globals user_prompt
                         ("Без системного промпта", None))
                world_after_init)
    = [ {| model := "mistral-small-latest";
           messages := [ {[ "role" := "user"; "content" := user_prompt ]} ];
           temperature := Some 0.7%float; max_tokens := Some 200;
           top_p := Some 1.0%float |} ].
Proof.
  split.
  - destruct (system_prompt_step_dispatch mock_hello sample_globals "Поэт"
                world_after_init) as [Hsystem _].
    apply (Hsystem "Ты поэт. Отвечай в стихотворной форме."). discriminate.
  - destruct (system_prompt_step_dispatch mock_hello sample_globals
                "Без системного промпта" world_after_init) as [_ [Hnone _]].
    exact Hnone.
Defined.

(** ** The whole script *)

Lemma main_without_credential_witness :
  result (main no_dotenv mock_hello sample_float_str) world_without_key
    = Raise (ValueError missing_key_message)
  ∧ emitted (main no_dotenv mock_hello sample_float_str) world_without_key
    = [LoadDotenv; EnvironGet "MISTRAL_API_KEY"]
  ∧ payloads (emitted (main no_dotenv mock_hello sample_float_str) world_without_key)
    = [].
Proof.
  apply (main_without_credential no_dotenv mock_hello sample_float_str
           world_without_key).
  left. reflexivity.
Defined.

Lemma main_one_client_witness :
  ∃ l,
    emitted (main no_dotenv mock_hello sample_float_str) world_with_key
      = init_events "secret" ++ l
    ∧ Forall (prints_or_calls {| api_key := "secret" |}) l
    ∧ environ (snd (main no_dotenv mock_hello sample_float_str world_with_key))
      = no_dotenv (environ world_with_key).
Proof.
  apply (main_one_client no_dotenv mock_hello sample_float_str world_with_key "secret");
    [reflexivity | discriminate].
Defined.

Example main_runs_with_mock :
  result (main no_dotenv mock_hello sample_float_str) world_with_key = Return tt
  ∧ length (emitted (main no_dotenv mock_hello sample_float_str) world_with_key) = 71%nat
  ∧ payloads (emitted (main no_dotenv mock_hello sample_float_str) world_with_key)
    = script_requests.
Proof. by vm_compute. Qed.


